(** * Chess platform backend: schemas, persistence handlers, matchmaking

    A shallow embedding of [schemas.py] (the pydantic record schemas) and of
    [main.py] (the request handlers) together with the properties the
    specification states about them.

    Python values are modelled as follows: [int] is [Z] (unbounded), [str] is
    [string] (a sequence of characters, [String.length] counts them), a
    [dict] with string keys is a [gmap string value], [None] is a constructor
    of the value universe, an exception is the [Raise] branch of [result]. *)

From Stdlib Require Import ZArith String Ascii List.
From stdpp Require Import base option list gmap strings fin_maps pretty.

Local Open Scope string_scope.
Local Open Scope Z_scope.
Local Open Scope list_scope.

(** ** Exceptions and fallible computations *)

Inductive exn :=
  | HTTPException (status_code : Z) (detail : string)
  | ValidationError (fields : list string)
  | KeyError (key : string)
  | TypeError
  | ValueError
  | StoreUnavailable.

Inductive result (A : Type) :=
  | Ok (a : A)
  | Raise (e : exn).
Arguments Ok {A} a.
Arguments Raise {A} e.

Definition bind {A B} (r : result A) (k : A → result B) : result B :=
  match r with
  | Ok a => k a
  | Raise e => Raise e
  end.

Notation "x ←? r ; k" := (bind r (fun x => k))
  (at level 100, r at next level, right associativity).

(** A [for] loop whose body builds one output per element and may raise:
    the first exception aborts the loop. *)
Fixpoint for_each {A B} (f : A → result B) (l : list A) : result (list B) :=
  match l with
  | [] => Ok []
  | a :: l' => b ←? f a; bs ←? for_each f l'; Ok (b :: bs)
  end.

(** The names the specification gives to the two HTTP failures of [main.py]. *)
Definition InvalidIdentifier : exn := HTTPException 400 "Invalid id".
Definition UserNotFound : exn := HTTPException 404 "User not found".

(** ** Field constraints of [pydantic.Field] *)

Definition min_length (n : nat) (s : string) : bool := (n <=? String.length s)%nat.
Definition max_length (n : nat) (s : string) : bool := (String.length s <=? n)%nat.
Definition ge (lo : Z) (x : Z) : bool := lo <=? x.
Definition le (hi : Z) (x : Z) : bool := x <=? hi.
Definition literal (allowed : list string) (s : string) : bool :=
  bool_decide (s ∈ allowed).

(** One field's contribution to the error list of a [ValidationError]. *)
Definition violates (field : string) (ok : bool) : list string :=
  if ok then [] else [field].

Definition validated {A} (errors : list string) (a : A) : result A :=
  match errors with
  | [] => Ok a
  | _ => Raise (ValidationError errors)
  end.

(** ** schemas.py *)

Module User.
Record t := make {
  username : string;
  display_name : option string;
  email : option string;
  rating : Z;
  country : option string }.

(** Keyword arguments of the constructor; [None] is an omitted argument. *)
Record kwargs := args {
  a_username : string;
  a_display_name : option string;
  a_email : option string;
  a_rating : option Z;
  a_country : option string }.

Definition new (a : kwargs) : result t :=
  let rating := default 1200 (a_rating a) in
  validated
    (violates "username" (min_length 3 (a_username a) && max_length 32 (a_username a))
     ++ violates "display_name" (from_option (max_length 64) true (a_display_name a))
     ++ violates "rating" (from_option (fun r => ge 100 r && le 4000 r) true (a_rating a)))
    {| username := a_username a;
       display_name := a_display_name a;
       email := a_email a;
       rating := rating;
       country := a_country a |}.

(** The same arguments with another [rating] argument. *)
Definition with_rating (a : kwargs) (r : option Z) : kwargs :=
  {| a_username := a_username a;
     a_display_name := a_display_name a;
     a_email := a_email a;
     a_rating := r;
     a_country := a_country a |}.

(** The constraints on the fields other than [rating]. *)
Definition rest_valid (a : kwargs) : bool :=
  min_length 3 (a_username a) && max_length 32 (a_username a)
  && from_option (max_length 64) true (a_display_name a).
End User.

Module Game.
Definition status_values := ["ongoing"; "white_won"; "black_won"; "draw"].
Definition time_control_values := ["bullet"; "blitz"; "rapid"; "classical"].
Definition turn_values := ["w"; "b"].
Definition initial_fen :=
  "rn1qkbnr/pp3ppp/2p1p3/3p4/3P4/2N1PN2/PPP2PPP/R1BQKB1R w KQkq - 0 1".

Record t := make {
  white_id : string;
  black_id : string;
  status : string;
  time_control : string;
  increment : Z;
  fen : string;
  moves : list string;
  turn : string;
  white_time_ms : Z;
  black_time_ms : Z }.

Record kwargs := args {
  a_white_id : string;
  a_black_id : string;
  a_status : option string;
  a_time_control : option string;
  a_increment : option Z;
  a_fen : option string;
  a_moves : option (list string);
  a_turn : option string;
  a_white_time_ms : option Z;
  a_black_time_ms : option Z }.

Definition new (a : kwargs) : result t :=
  validated
    (violates "status" (from_option (literal status_values) true (a_status a))
     ++ violates "time_control"
          (from_option (literal time_control_values) true (a_time_control a))
     ++ violates "increment"
          (from_option (fun i => ge 0 i && le 60 i) true (a_increment a))
     ++ violates "turn" (from_option (literal turn_values) true (a_turn a))
     ++ violates "white_time_ms" (from_option (ge 0) true (a_white_time_ms a))
     ++ violates "black_time_ms" (from_option (ge 0) true (a_black_time_ms a)))
    {| white_id := a_white_id a;
       black_id := a_black_id a;
       status := default "ongoing" (a_status a);
       time_control := default "blitz" (a_time_control a);
       increment := default 0 (a_increment a);
       fen := default initial_fen (a_fen a);
       moves := default [] (a_moves a);
       turn := default "w" (a_turn a);
       white_time_ms := default 300000 (a_white_time_ms a);
       black_time_ms := default 300000 (a_black_time_ms a) |}.
End Game.

Module Puzzle.
Record t := make {
  fen : string;
  moves : list string;
  themes : list string;
  rating : Z }.

Record kwargs := args {
  a_fen : string;
  a_moves : list string;
  a_themes : option (list string);
  a_rating : option Z }.

Definition new (a : kwargs) : result t :=
  Ok {| fen := a_fen a;
        moves := a_moves a;
        themes := default [] (a_themes a);
        rating := default 1000 (a_rating a) |}.
End Puzzle.

Module Lesson.
Definition topic_values := ["openings"; "strategy"; "tactics"; "endgames"; "basics"].
Definition difficulty_values := ["beginner"; "intermediate"; "advanced"].

Record t := make {
  title : string;
  content : string;
  topic : string;
  difficulty : string }.

Record kwargs := args {
  a_title : string;
  a_content : string;
  a_topic : option string;
  a_difficulty : option string }.

Definition new (a : kwargs) : result t :=
  validated
    (violates "topic" (from_option (literal topic_values) true (a_topic a))
     ++ violates "difficulty"
          (from_option (literal difficulty_values) true (a_difficulty a)))
    {| title := a_title a;
       content := a_content a;
       topic := default "basics" (a_topic a);
       difficulty := default "beginner" (a_difficulty a) |}.
End Lesson.

Module ChatMessage.
Record t := make {
  game_id : string;
  user_id : string;
  text : string }.
End ChatMessage.

(** The five record kinds and their class names. *)
Inductive kind := KUser | KGame | KPuzzle | KLesson | KChatMessage.

Definition class_name (k : kind) : string :=
  match k with
  | KUser => "User"
  | KGame => "Game"
  | KPuzzle => "Puzzle"
  | KLesson => "Lesson"
  | KChatMessage => "ChatMessage"
  end.

(** A validated model instance, as a handler receives it in its body. *)
Inductive model :=
  | MUser (u : User.t)
  | MGame (g : Game.t)
  | MPuzzle (p : Puzzle.t)
  | MLesson (l : Lesson.t)
  | MChatMessage (m : ChatMessage.t).

Definition lower_ascii (c : ascii) : ascii :=
  let n := nat_of_ascii c in
  if ((65 <=? n) && (n <=? 90))%nat then ascii_of_nat (n + 32) else c.

Fixpoint lowercase (s : string) : string :=
  match s with
  | EmptyString => EmptyString
  | String c s' => String (lower_ascii c) (lowercase s')
  end.

(** ** External libraries taken as parameters

    [bson.ObjectId] and the builtins [int] and [repr] belong to the Python
    runtime, not to this code base.  The handlers are verified for every
    identifier scheme and every behaviour of those builtins. *)

Class Bson := {
  ObjectId : Type;
  ObjectId_eq_dec :: EqDecision ObjectId;
  (** [ObjectId(id_str)]: [None] when the constructor raises. *)
  ObjectId_new : string → option ObjectId;
  (** [str(oid)] *)
  ObjectId_str : ObjectId → string;
  (** The identifier the store assigns to the [n]-th inserted document. *)
  ObjectId_fresh : nat → ObjectId }.

Class Builtins := {
  (** [int(s)] on a [str]: [None] when it raises [ValueError]. *)
  int_of_str : string → option Z;
  (** [str(l)] on a [list] of [str]. *)
  str_of_list : list string → string }.

Module IDModel.
Record t := make { id : string }.
End IDModel.

Module CreateGameRequest.
Record t := make {
  white_id : string;
  black_id : string;
  time_control : string;
  increment : Z }.

Definition new (white_id black_id : string)
    (time_control : option string) (increment : option Z) : t :=
  {| white_id := white_id;
     black_id := black_id;
     time_control := default "blitz" time_control;
     increment := default 0 increment |}.
End CreateGameRequest.

Module MatchRequest.
Record t := make { user_id : string }.
End MatchRequest.

(** The [Game(...)] call in the body of [create_game]. *)
Definition game_of_payload (payload : CreateGameRequest.t) : result Game.t :=
  Game.new
    {| Game.a_white_id := CreateGameRequest.white_id payload;
       Game.a_black_id := CreateGameRequest.black_id payload;
       Game.a_status := None;
       Game.a_time_control := Some (CreateGameRequest.time_control payload);
       Game.a_increment := Some (CreateGameRequest.increment payload);
       Game.a_fen := None;
       Game.a_moves := None;
       Game.a_turn := None;
       Game.a_white_time_ms := None;
       Game.a_black_time_ms := None |}.

Section Main.
Context `{Bson} `{Builtins}.

(** *** Python values held in documents *)

Inductive value :=
  | VNone
  | VInt (z : Z)
  | VStr (s : string)
  | VList (l : list string)
  | VOid (o : ObjectId).

#[global] Instance value_eq_dec : EqDecision value.
Proof. solve_decision. Defined.

Abbreviation doc := (gmap string value).

(** [bson.ObjectId.is_valid]: the strings the constructor accepts are the
    well-formed identifiers of the scheme. *)
Definition is_valid (id_str : string) : bool :=
  match ObjectId_new id_str with Some _ => true | None => false end.

(** [str(v)] *)
Definition py_str (v : value) : string :=
  match v with
  | VNone => "None"
  | VInt z => pretty z
  | VStr s => s
  | VList l => str_of_list l
  | VOid o => ObjectId_str o
  end.

(** [int(v)] *)
Definition py_int (v : value) : result Z :=
  match v with
  | VInt z => Ok z
  | VStr s => from_option Ok (Raise ValueError) (int_of_str s)
  | VNone | VList _ | VOid _ => Raise TypeError
  end.

(** [d.get(key)] and [d.get(key, dflt)] *)
Definition get (d : doc) (key : string) : value := default VNone (d !! key).
Definition get_or (d : doc) (key : string) (dflt : value) : value :=
  default dflt (d !! key).

(** Truth value of a dict-or-None variable: [None] and [{}] are false. *)
Definition truthy_doc (o : option doc) : bool :=
  match o with
  | None => false
  | Some d => bool_decide (d ≠ ∅)
  end.

(** *** The store interface used by main.py ([database.py]) *)

Class Store := {
  Db : Type;
  (** [create_document(collection_name, data)]: the new identifier as a
      string, and the store after the insertion. *)
  create_document : Db → string → model → result (string * Db);
  (** [get_documents(collection_name, filter_dict, limit)]; [None] is an
      argument left out at the call. *)
  get_documents : Db → string → option doc → option Z → result (list doc) }.

Context `{Store}.

(** *** main.py *)

Definition oid (id_str : string) : result ObjectId :=
  match ObjectId_new id_str with
  | Some o => Ok o
  | None => Raise (HTTPException 400 "Invalid id")
  end.

(** [d["id"] = str(d.pop("_id"))] *)
Definition rewrite_id (d : doc) : result doc :=
  match d !! "_id" with
  | Some v => Ok (<["id" := VStr (py_str v)]> (delete "_id" d))
  | None => Raise (KeyError "_id")
  end.

Definition create_user (db : Db) (user : User.t) : result (IDModel.t * Db) :=
  r ←? create_document db "user" (MUser user);
  Ok (IDModel.make r.1, r.2).

Definition list_users (db : Db) (limit : Z) : result (list doc) :=
  docs ←? get_documents db "user" (Some ∅) (Some limit);
  for_each rewrite_id docs.

Definition create_game (db : Db) (payload : CreateGameRequest.t)
    : result (IDModel.t * Db) :=
  game ←? game_of_payload payload;
  r ←? create_document db "game" (MGame game);
  Ok (IDModel.make r.1, r.2).

Definition list_games (db : Db) (limit : Z) : result (list doc) :=
  docs ←? get_documents db "game" (Some ∅) (Some limit);
  for_each rewrite_id docs.

Definition create_puzzle (db : Db) (puzzle : Puzzle.t) : result (IDModel.t * Db) :=
  r ←? create_document db "puzzle" (MPuzzle puzzle);
  Ok (IDModel.make r.1, r.2).

Definition list_puzzles (db : Db) (limit : Z) : result (list doc) :=
  docs ←? get_documents db "puzzle" (Some ∅) (Some limit);
  for_each rewrite_id docs.

Definition create_lesson (db : Db) (lesson : Lesson.t) : result (IDModel.t * Db) :=
  r ←? create_document db "lesson" (MLesson lesson);
  Ok (IDModel.make r.1, r.2).

Definition list_lessons (db : Db) (limit : Z) : result (list doc) :=
  docs ←? get_documents db "lesson" (Some ∅) (Some limit);
  for_each rewrite_id docs.

Definition post_chat (db : Db) (msg : ChatMessage.t) : result (IDModel.t * Db) :=
  r ←? create_document db "chatmessage" (MChatMessage msg);
  Ok (IDModel.make r.1, r.2).

Definition list_chat (db : Db) (game_id : option string) (limit : Z)
    : result (list doc) :=
  let filt : doc :=
    match game_id with
    | Some g => if bool_decide (g = "") then ∅ else {[ "game_id" := VStr g ]}
    | None => ∅
    end in
  docs ←? get_documents db "chatmessage" (Some filt) (Some limit);
  for_each rewrite_id docs.

(** *** Matchmaking *)

Inductive match_result :=
  | NoMatch
  | Match (id : string) (username : value) (rating : value).

(** [str(u.get("_id"))] *)
Definition ext_id (u : doc) : string := py_str (get u "_id").

(** First loop of [matchmake]: the first user whose identifier is the
    requested one. *)
Fixpoint locate (users : list doc) (user_id : string) : option doc :=
  match users with
  | [] => None
  | u :: users' =>
      if bool_decide (ext_id u = user_id) then Some u else locate users' user_id
  end.

(** Second loop of [matchmake], from the loop variables [best] and
    [best_diff] at its entry to their values at its exit. *)
Fixpoint scan (me : doc) (user_id : string) (users : list doc)
    (best : option doc) (best_diff : Z) : result (option doc * Z) :=
  match users with
  | [] => Ok (best, best_diff)
  | u :: users' =>
      if bool_decide (ext_id u = user_id) then scan me user_id users' best best_diff
      else
        ru ←? py_int (get_or u "rating" (VInt 1200));
        rme ←? py_int (get_or me "rating" (VInt 1200));
        let diff := Z.abs (ru - rme) in
        if diff <? best_diff then scan me user_id users' (Some u) diff
        else scan me user_id users' best best_diff
  end.

(** The body of [matchmake] after the fetch. *)
Definition find_match (users : list doc) (user_id : string) : result match_result :=
  let me := locate users user_id in
  if negb (truthy_doc me) then Raise (HTTPException 404 "User not found")
  else
    r ←? scan (default ∅ me) user_id users None (10 ^ 9);
    let best := r.1 in
    if negb (truthy_doc best) then Ok NoMatch
    else
      let best := default ∅ best in
      Ok (Match (ext_id best) (get best "username")
                (get_or best "rating" (VInt 1200))).

Definition matchmake (db : Db) (req : MatchRequest.t) : result match_result :=
  users ←? get_documents db "user" None None;
  find_match users (MatchRequest.user_id req).

(** *** Notions used by the statements *)

(** The other users, in fetch order. *)
Definition others (user_id : string) (users : list doc) : list doc :=
  filter (λ u, ext_id u ≠ user_id) users.

(** The rating a user document carries (1200 when it carries none). *)
Definition rating_of (u : doc) : Z :=
  match u !! "rating" with
  | Some (VInt r) => r
  | _ => 1200
  end.

Definition rating_diff (me u : doc) : Z := Z.abs (rating_of u - rating_of me).

(** A stored user: it carries its store-assigned identifier, and its rating
    is an integer within the bounds of the [User] schema. *)
Definition stored_user (u : doc) : bool :=
  match u !! "_id" with
  | Some (VOid _) => true
  | _ => false
  end &&
  match u !! "rating" with
  | None => true
  | Some (VInt r) => (100 <=? r) && (r <=? 4000)
  | Some _ => false
  end.

(** The summary [matchmake] reports for an opponent. *)
Definition summary (u : doc) : match_result :=
  Match (ext_id u) (get u "username") (get_or u "rating" (VInt 1200)).

(** *** The routes, by record kind *)

Inductive create_request :=
  | PostUsers (user : User.t)
  | PostGames (payload : CreateGameRequest.t)
  | PostPuzzles (puzzle : Puzzle.t)
  | PostLessons (lesson : Lesson.t)
  | PostChat (msg : ChatMessage.t).

Inductive list_request :=
  | GetUsers (limit : Z)
  | GetGames (limit : Z)
  | GetPuzzles (limit : Z)
  | GetLessons (limit : Z)
  | GetChat (game_id : option string) (limit : Z).

Definition created_kind (r : create_request) : kind :=
  match r with
  | PostUsers _ => KUser
  | PostGames _ => KGame
  | PostPuzzles _ => KPuzzle
  | PostLessons _ => KLesson
  | PostChat _ => KChatMessage
  end.

Definition listed_kind (r : list_request) : kind :=
  match r with
  | GetUsers _ => KUser
  | GetGames _ => KGame
  | GetPuzzles _ => KPuzzle
  | GetLessons _ => KLesson
  | GetChat _ _ => KChatMessage
  end.

Definition limit_of (r : list_request) : Z :=
  match r with
  | GetUsers n | GetGames n | GetPuzzles n | GetLessons n | GetChat _ n => n
  end.

Definition handle_create (db : Db) (r : create_request) : result (IDModel.t * Db) :=
  match r with
  | PostUsers user => create_user db user
  | PostGames payload => create_game db payload
  | PostPuzzles puzzle => create_puzzle db puzzle
  | PostLessons lesson => create_lesson db lesson
  | PostChat msg => post_chat db msg
  end.

Definition handle_list (db : Db) (r : list_request) : result (list doc) :=
  match r with
  | GetUsers limit => list_users db limit
  | GetGames limit => list_games db limit
  | GetPuzzles limit => list_puzzles db limit
  | GetLessons limit => list_lessons db limit
  | GetChat game_id limit => list_chat db game_id limit
  end.

(** The model instance a create route hands to the store, after the
    validation its body performs. *)
Definition created_model (r : create_request) : result model :=
  match r with
  | PostUsers user => Ok (MUser user)
  | PostGames payload => game ←? game_of_payload payload; Ok (MGame game)
  | PostPuzzles puzzle => Ok (MPuzzle puzzle)
  | PostLessons lesson => Ok (MLesson lesson)
  | PostChat msg => Ok (MChatMessage msg)
  end.

(** The filter a list route hands to the store. *)
Definition listed_filter (r : list_request) : doc :=
  match r with
  | GetChat (Some g) _ => if bool_decide (g = "") then ∅ else {[ "game_id" := VStr g ]}
  | _ => ∅
  end.
End Main.

(** ** An in-memory document store *)

Section MemStore.
Context `{Bson} `{Builtins}.

Abbreviation doc := (gmap string value).

Definition of_opt (o : option string) : value := from_option VStr VNone o.

(** Modelled from the spec: [database.py] is not part of the sources.
    A record is serialised field for field, with no identifier field. *)
Definition to_document (m : model) : doc :=
  match m with
  | MUser u =>
      <["username" := VStr (User.username u)]>
      (<["display_name" := of_opt (User.display_name u)]>
      (<["email" := of_opt (User.email u)]>
      (<["rating" := VInt (User.rating u)]>
      (<["country" := of_opt (User.country u)]> ∅))))
  | MGame g =>
      <["white_id" := VStr (Game.white_id g)]>
      (<["black_id" := VStr (Game.black_id g)]>
      (<["status" := VStr (Game.status g)]>
      (<["time_control" := VStr (Game.time_control g)]>
      (<["increment" := VInt (Game.increment g)]>
      (<["fen" := VStr (Game.fen g)]>
      (<["moves" := VList (Game.moves g)]>
      (<["turn" := VStr (Game.turn g)]>
      (<["white_time_ms" := VInt (Game.white_time_ms g)]>
      (<["black_time_ms" := VInt (Game.black_time_ms g)]> ∅)))))))))
  | MPuzzle p =>
      <["fen" := VStr (Puzzle.fen p)]>
      (<["moves" := VList (Puzzle.moves p)]>
      (<["themes" := VList (Puzzle.themes p)]>
      (<["rating" := VInt (Puzzle.rating p)]> ∅)))
  | MLesson l =>
      <["title" := VStr (Lesson.title l)]>
      (<["content" := VStr (Lesson.content l)]>
      (<["topic" := VStr (Lesson.topic l)]>
      (<["difficulty" := VStr (Lesson.difficulty l)]> ∅)))
  | MChatMessage m =>
      <["game_id" := VStr (ChatMessage.game_id m)]>
      (<["user_id" := VStr (ChatMessage.user_id m)]>
      (<["text" := VStr (ChatMessage.text m)]> ∅))
  end.

(** Modelled from the spec: [database.py] is not part of the sources.
    The store groups documents by collection name, each with the
    identifier assigned at insertion; [inserted] counts the insertions. *)
Record store := {
  collections : gmap string (list (ObjectId * doc));
  inserted : nat }.

(** The connection [db]: [None] when the store is unavailable. *)
Definition connection := option store.

Definition collection (s : store) (name : string) : list (ObjectId * doc) :=
  default [] (collections s !! name).

(** A stored document as a query returns it. *)
Definition fetched (row : ObjectId * doc) : doc := <["_id" := VOid row.1]> row.2.

(** A stored document as a list route returns it. *)
Definition listed (row : ObjectId * doc) : doc :=
  <["id" := VStr (ObjectId_str row.1)]> (delete "_id" row.2).

(** Modelled from the spec: a document matches a filter when it has every
    field of the filter with the same value; the empty filter matches all. *)
Definition matches (filt : doc) (d : doc) : bool :=
  bool_decide (map_Forall (λ k v, d !! k = Some v) filt).

(** Modelled from the spec: [insert] persists the document under a newly
    generated identifier and returns it in its string form; it fails with
    [StoreUnavailable] without a live connection. *)
Definition mem_create_document (db : connection) (name : string) (data : model)
    : result (string * connection) :=
  match db with
  | None => Raise StoreUnavailable
  | Some s =>
      let o := ObjectId_fresh (inserted s) in
      Ok (ObjectId_str o,
          Some {| collections :=
                    <[name := collection s name ++ [(o, to_document data)]]>
                      (collections s);
                  inserted := S (inserted s) |})
  end.

(** Modelled from the spec: [query] returns at most [limit] documents of
    the collection whose fields match the filter, in stored order; a call
    without a filter matches all and a call without a limit returns all. *)
Definition mem_get_documents (db : connection) (name : string)
    (filter_dict : option doc) (limit : option Z) : result (list doc) :=
  match db with
  | None => Raise StoreUnavailable
  | Some s =>
      let found :=
        filter (λ d, matches (default ∅ filter_dict) d = true)
               (fetched <$> collection s name) in
      Ok (from_option (λ n, take (Z.to_nat n) found) found limit)
  end.

#[global] Instance mem_store : Store := {|
  Db := connection;
  create_document := mem_create_document;
  get_documents := mem_get_documents |}.
End MemStore.

(** ** A concrete runtime for the examples *)

Module Hex24.
Definition hex_digit (c : ascii) : option N :=
  let n := N_of_ascii c in
  if ((48 <=? n) && (n <=? 57))%N then Some (n - 48)%N
  else if ((97 <=? n) && (n <=? 102))%N then Some (n - 87)%N
  else if ((65 <=? n) && (n <=? 70))%N then Some (n - 55)%N
  else None.

Fixpoint parse_hex (s : string) (acc : N) : option N :=
  match s with
  | EmptyString => Some acc
  | String c s' =>
      match hex_digit c with
      | Some d => parse_hex s' (16 * acc + d)%N
      | None => None
      end
  end.

Definition digit_char (d : N) : ascii :=
  if (d <? 10)%N then ascii_of_N (48 + d) else ascii_of_N (87 + d).

Fixpoint render (digits : nat) (n : N) (acc : string) : string :=
  match digits with
  | O => acc
  | S k => render k (n / 16)%N (String (digit_char (n mod 16)%N) acc)
  end.

Fixpoint all_hex (s : string) : bool :=
  match s with
  | EmptyString => true
  | String c s' => match hex_digit c with Some _ => all_hex s' | None => false end
  end.

(** Right length and right character set. *)
Definition well_formed (s : string) : bool :=
  (String.length s =? 24)%nat && all_hex s.

(** Modelled from the spec: the identifier scheme of the store is not part
    of the sources; an identifier is a fixed-length hexadecimal token, here
    24 hexadecimal digits, printed in lower case. *)
#[global] Instance bson : Bson := {|
  ObjectId := N;
  ObjectId_new s :=
    if (String.length s =? 24)%nat then parse_hex s 0%N else None;
  ObjectId_str o := render 24 o "";
  ObjectId_fresh n := N.of_nat n |}.
End Hex24.

Module Sample.
Definition dec_digit (c : ascii) : option Z :=
  let n := Z.of_N (N_of_ascii c) in
  if (48 <=? n) && (n <=? 57) then Some (n - 48) else None.

Fixpoint parse_dec (s : string) (acc : Z) : option Z :=
  match s with
  | EmptyString => Some acc
  | String c s' =>
      match dec_digit c with
      | Some d => parse_dec s' (10 * acc + d)
      | None => None
      end
  end.

(** A stand-in for the two builtins, on the inputs the examples use:
    plain digit strings, and lists printed between brackets. *)
#[global] Instance builtins : Builtins := {|
  int_of_str s := if bool_decide (s = "") then None else parse_dec s 0;
  str_of_list l := "[" +:+ String.concat ", " l +:+ "]" |}.

(** The users A, B and C of the specification's matchmaking examples. *)
Definition profile (name : string) (r : Z) : gmap string value :=
  <["username" := VStr name]> (<["rating" := VInt r]> ∅).

Definition user_store (rows : list (N * gmap string value)) : connection :=
  Some {| collections := {[ "user" := rows ]}; inserted := length rows |}.

Definition id_A := "00000000000000000000000a".
Definition row_A := (10%N, profile "alice" 1200).
Definition row_B := (11%N, profile "bob" 1300).
Definition row_C := (12%N, profile "carol" 1100).
Definition A := fetched row_A.
Definition B := fetched row_B.
Definition C := fetched row_C.

Definition store_ABC := user_store [row_A; row_B; row_C].
Definition store_A := user_store [row_A].

(** A store holding two chat messages of two different games. *)
Definition chat (g u t : string) : gmap string value :=
  <["game_id" := VStr g]> (<["user_id" := VStr u]> (<["text" := VStr t]> ∅)).

Definition row_1 := (1%N, chat "g1" "u1" "hi").
Definition row_2 := (2%N, chat "g2" "u2" "gg").

Definition chat_state : store :=
  {| collections := {[ "chatmessage" := [row_1; row_2] ]}; inserted := 2 |}.
End Sample.

(** ** The health route of main.py *)

Module Health.
(** The connection object [db] as [test_database] reads it: its [name]
    attribute ([None] when it has none) and the outcome of
    [list_collection_names()], the names or the text of the exception. *)
Record handle := {
  name : option string;
  list_collection_names : list string + string }.

Record response := {
  backend : string;
  database : string;
  database_url : option string;
  database_name : option string;
  connection_status : string;
  collections : list string }.

Definition set_database (v : string) (r : response) : response :=
  {| backend := backend r; database := v; database_url := database_url r;
     database_name := database_name r; connection_status := connection_status r;
     collections := collections r |}.

Definition set_database_url (v : string) (r : response) : response :=
  {| backend := backend r; database := database r; database_url := Some v;
     database_name := database_name r; connection_status := connection_status r;
     collections := collections r |}.

Definition set_database_name (v : string) (r : response) : response :=
  {| backend := backend r; database := database r; database_url := database_url r;
     database_name := Some v; connection_status := connection_status r;
     collections := collections r |}.

Definition set_connection_status (v : string) (r : response) : response :=
  {| backend := backend r; database := database r; database_url := database_url r;
     database_name := database_name r; connection_status := v;
     collections := collections r |}.

Definition set_collections (v : list string) (r : response) : response :=
  {| backend := backend r; database := database r; database_url := database_url r;
     database_name := database_name r; connection_status := connection_status r;
     collections := v |}.

(** [s[:n]] on a [str] *)
Fixpoint str_slice (n : nat) (s : string) : string :=
  match n, s with
  | S n', String c s' => String c (str_slice n' s')
  | _, _ => EmptyString
  end.

(** Truth value of [os.getenv(...)]: [None] and the empty string are false. *)
Definition is_set (env : option string) : bool :=
  match env with
  | Some v => bool_decide (v ≠ "")
  | None => false
  end.

Definition initial : response :=
  {| backend := "✅ Running";
     database := "❌ Not Available";
     database_url := None;
     database_name := None;
     connection_status := "Not Connected";
     collections := [] |}.

(** The global [db] when it is not [None]: an object whose [name] attribute
    can be read, or one on which [hasattr(db, 'name')] raises an exception
    (other than [AttributeError]) of text [e]. *)
Inductive connection :=
  | Readable (h : handle)
  | Unreadable (e : string).

(** [test_database()], from the global [db] and the environment variable
    [DATABASE_URL].  The inner [try] covers the listing of the collections;
    the outer one covers the read of [db.name], the only other step that can
    raise, and is left with the response as updated up to that step. *)
Definition test_database (db : option connection) (DATABASE_URL : option string)
    : response :=
  let response := initial in
  match db with
  | Some c =>
      let response := set_database "✅ Available" response in
      let response :=
        set_database_url (if is_set DATABASE_URL then "✅ Set" else "❌ Not Set")
          response in
      match c with
      | Readable h =>
          let response :=
            set_database_name (default "✅ Connected" (name h)) response in
          let response := set_connection_status "Connected" response in
          match list_collection_names h with
          | inl names =>
              let response := set_collections (take 10 names) response in
              set_database "✅ Connected & Working" response
          | inr e =>
              set_database ("⚠️  Connected but Error: " +:+ str_slice 50 e) response
          end
      | Unreadable e => set_database ("❌ Error: " +:+ str_slice 50 e) response
      end
  | None => set_database "⚠️  Available but not initialized" response
  end.
End Health.

(** ** Further notions for the statements on main.py *)

Section Distance.
Context `{Bson} `{Builtins}.

Abbreviation doc := (gmap string value).

(** [abs(int(u.get("rating", 1200)) - int(me.get("rating", 1200)))], as the
    second loop of [matchmake] evaluates it for a candidate [u]. *)
Definition rating_distance (me u : doc) : result Z :=
  ru ←? py_int (get_or u "rating" (VInt 1200));
  rme ←? py_int (get_or me "rating" (VInt 1200));
  Ok (Z.abs (ru - rme)).
End Distance.

Module Cases.
(** A user two thousand million points away, a user whose rating is null,
    and a document that lost its identifier. *)
Definition row_far := (11%N, Sample.profile "far" 2000000000).
Definition row_null : N * gmap string value :=
  (13%N, <["username" := VStr "dave"]> (<["rating" := VNone]> ∅)).
Definition far := fetched row_far.
Definition null := fetched row_null.
Definition store_far := Sample.user_store [Sample.row_A; row_far].
Definition store_null := Sample.user_store [Sample.row_A; Sample.row_B; row_null].
Definition headless : gmap string value := Sample.profile "ghost" 1500.

(** A store whose every query returns the given documents. *)
Definition fixed_store (docs : list (gmap string value)) : Store :=
  {| Db := unit;
     create_document := λ _ _ _, Raise StoreUnavailable;
     get_documents := λ _ _ _ _, Ok docs |}.

Definition failing_listing : Health.handle :=
  {| Health.name := Some "chess";
     Health.list_collection_names := inr "connection refused" |}.
End Cases.

(** ** Properties of the matchmaking scan *)

Section Matchmaking.
Context `{Hbson : Bson} `{Hbuiltins : Builtins} `{Hstore : !Store}.

Abbreviation doc := (gmap string value).
Implicit Types (u me : doc) (users : list doc) (user_id : string).

Lemma locate_Some users user_id me :
  locate users user_id = Some me → me ∈ users ∧ ext_id me = user_id.
Proof.
  induction users as [|u users IH]; simpl; [done|].
  case_bool_decide as Hu.
  - intros [= <-]. split; [left | done].
  - intros [Hin ?]%IH. split; [by right | done].
Qed.

Lemma locate_None users user_id :
  (∀ u, u ∈ users → ext_id u ≠ user_id) → locate users user_id = None.
Proof.
  induction users as [|u users IH]; simpl; intros Hall; [done|].
  rewrite bool_decide_eq_false_2; [|apply Hall; left].
  apply IH. intros v Hv. apply Hall. by right.
Qed.

Lemma locate_is_Some users user_id u :
  u ∈ users → ext_id u = user_id → is_Some (locate users user_id).
Proof.
  induction users as [|v users IH]; simpl; [by intros ?%elem_of_nil|].
  intros [->|Hin]%elem_of_cons Hid.
  - rewrite bool_decide_eq_true_2; eauto.
  - case_bool_decide; eauto.
Qed.

Lemma stored_user_nonempty u : stored_user u = true → u ≠ ∅.
Proof.
  unfold stored_user. intros Hs ->. by rewrite lookup_empty in Hs.
Qed.

Lemma stored_user_rating u :
  stored_user u = true →
  py_int (get_or u "rating" (VInt 1200)) = Ok (rating_of u) ∧
  100 ≤ rating_of u ≤ 4000.
Proof.
  unfold stored_user, get_or, rating_of.
  intros [_ Hr]%andb_true_iff.
  destruct (u !! "rating") as [[]|]; simpl in *; try done; split; try done; lia.
Qed.

(** The second loop on stored users: either no other user is closer than
    the entry value of [best_diff] and the loop variables are unchanged, or
    the loop ends on the first of the closest other users. *)
Lemma scan_stored me user_id users best best_diff :
  stored_user me = true →
  Forall (λ u, stored_user u = true) users →
  (Forall (λ c, best_diff ≤ rating_diff me c) (others user_id users) ∧
   scan me user_id users best best_diff = Ok (best, best_diff)) ∨
  (∃ before b after,
     others user_id users = before ++ b :: after ∧
     rating_diff me b < best_diff ∧
     (∀ c, c ∈ before → rating_diff me b < rating_diff me c) ∧
     (∀ c, c ∈ after → rating_diff me b ≤ rating_diff me c) ∧
     scan me user_id users best best_diff = Ok (Some b, rating_diff me b)).
Proof.
  intros Hme Hall. revert best best_diff.
  induction Hall as [|u users Hu Hall IH]; intros best best_diff.
  { left. split; [constructor | done]. }
  simpl. unfold others in *. case_bool_decide as Hid.
  { rewrite filter_cons_False by tauto. apply IH. }
  rewrite filter_cons_True by done.
  destruct (stored_user_rating u Hu) as [-> _].
  destruct (stored_user_rating me Hme) as [-> _]. simpl.
  fold (rating_diff me u).
  destruct (Z.ltb_spec (rating_diff me u) best_diff) as [Hlt|Hge].
  - right.
    destruct (IH (Some u) (rating_diff me u))
      as [[Hrest Hs]|(before & b & after & Heq & Hb & Hbefore & Hafter & Hs)].
    + exists [], u, (filter (λ v, ext_id v ≠ user_id) users).
      split_and!; [done | done | by intros c ?%elem_of_nil | | done].
      intros c Hc. by eapply Forall_forall in Hrest.
    + exists (u :: before), b, after. rewrite Heq.
      split_and!; [done | lia | | done | done].
      intros c [->|Hc]%elem_of_cons; [done | by apply Hbefore].
  - destruct (IH best best_diff)
      as [[Hrest Hs]|(before & b & after & Heq & Hb & Hbefore & Hafter & Hs)].
    + left. split; [by constructor | done].
    + right. exists (u :: before), b, after. rewrite Heq.
      split_and!; [done | done | | done | done].
      intros c [->|Hc]%elem_of_cons; [lia | by apply Hbefore].
Qed.

Lemma scan_best me user_id users best best_diff b d :
  scan me user_id users best best_diff = Ok (Some b, d) →
  best = Some b ∨ (b ∈ users ∧ ext_id b ≠ user_id).
Proof.
  revert best best_diff.
  induction users as [|u users IH]; simpl; intros best best_diff.
  { intros [= -> _]. by left. }
  case_bool_decide as Hid.
  { intros [?|[? ?]]%IH; [by left | right; split; [by right | done]]. }
  destruct (py_int (get_or u "rating" (VInt 1200))) as [ru|]; simpl; [|done].
  destruct (py_int (get_or me "rating" (VInt 1200))) as [rme|]; simpl; [|done].
  destruct (Z.abs (ru - rme) <? best_diff).
  - intros [[= ->]|[? ?]]%IH; right; split; [left | done | by right | done].
  - intros [?|[? ?]]%IH; [by left | right; split; [by right | done]].
Qed.

(** Without another user the second loop leaves its variables unchanged. *)
Lemma scan_alone me user_id users best best_diff :
  others user_id users = [] →
  scan me user_id users best best_diff = Ok (best, best_diff).
Proof.
  unfold others. induction users as [|u users IH]; simpl; [done|].
  case_bool_decide as Hid.
  - rewrite filter_cons_False by tauto. apply IH.
  - by rewrite filter_cons_True.
Qed.

Lemma find_match_located users user_id me :
  locate users user_id = Some me → me ≠ ∅ →
  find_match users user_id =
    (r ←? scan me user_id users None (10 ^ 9);
     if negb (truthy_doc r.1) then Ok NoMatch else Ok (summary (default ∅ r.1))).
Proof.
  intros Hme Hne. unfold find_match. rewrite Hme. simpl.
  by rewrite bool_decide_eq_true_2.
Qed.

(** C1: when the requesting user is among the fetched users and there is
    at least one other user, [matchmake] returns the other user with the
    least absolute rating difference to the requester, and among several
    such users the one that comes first in fetch order: every other user
    fetched before the result is strictly farther, every one fetched after
    it is at least as far.  The requester [me], from whose rating the
    differences are taken, is a fetched user whose external identifier is
    the requested one.  The fetched users are stored users, whose ratings
    lie within the bounds of the [User] schema. *)
Theorem matchmake_closest_first db req users :
  get_documents db "user" None None = Ok users →
  Forall (λ u, stored_user u = true) users →
  (∃ u, u ∈ users ∧ ext_id u = MatchRequest.user_id req) →
  others (MatchRequest.user_id req) users ≠ [] →
  ∃ me before best after,
    me ∈ users ∧ ext_id me = MatchRequest.user_id req ∧
    locate users (MatchRequest.user_id req) = Some me ∧
    others (MatchRequest.user_id req) users = before ++ best :: after ∧
    (∀ c, c ∈ before → rating_diff me best < rating_diff me c) ∧
    (∀ c, c ∈ after → rating_diff me best ≤ rating_diff me c) ∧
    matchmake db req = Ok (summary best).
Proof.
  intros Hfetch Hall (u & Hu & Hid) Hothers.
  destruct (locate_is_Some users _ u Hu Hid) as [me Hme].
  destruct (locate_Some _ _ _ Hme) as [Hin Hreq].
  assert (stored_user me = true) as Hsme by (by eapply Forall_forall in Hall).
  unfold matchmake. rewrite Hfetch. simpl.
  rewrite (find_match_located _ _ me Hme (stored_user_nonempty _ Hsme)).
  destruct (scan_stored me (MatchRequest.user_id req) users None (10 ^ 9) Hsme Hall)
    as [[Hfar _]|(before & b & after & Heq & _ & Hbefore & Hafter & ->)].
  - exfalso.
    destruct (others (MatchRequest.user_id req) users) as [|c cs] eqn:Ho; [done|].
    assert (c ∈ users) as Hc.
    { assert (c ∈ others (MatchRequest.user_id req) users) as Hc
        by (rewrite Ho; left).
      unfold others in Hc. by apply list_elem_of_filter in Hc as [_ ?]. }
    eapply Forall_forall in Hall; [|exact Hc].
    apply Forall_cons in Hfar as [Hfar _].
    destruct (stored_user_rating c Hall) as [_ ?].
    destruct (stored_user_rating me Hsme) as [_ ?].
    unfold rating_diff in Hfar. lia.
  - exists me, before, b, after. split_and!; try done.
    simpl. rewrite bool_decide_eq_true_2; [done|].
    apply stored_user_nonempty.
    eapply Forall_forall in Hall; [done|].
    assert (b ∈ others (MatchRequest.user_id req) users) as Hb
      by (rewrite Heq; set_solver).
    unfold others in Hb. by apply list_elem_of_filter in Hb as [_ ?].
Qed.

(** C4: when the requested identifier is the external identifier of no
    fetched user, [matchmake] fails with [UserNotFound] (HTTP 404), and so
    returns no match result. *)
Theorem matchmake_unknown_user db req users :
  get_documents db "user" None None = Ok users →
  (∀ u, u ∈ users → ext_id u ≠ MatchRequest.user_id req) →
  matchmake db req = Raise UserNotFound.
Proof.
  intros Hfetch Hnone. unfold matchmake, find_match. rewrite Hfetch. simpl.
  by rewrite (locate_None _ _ Hnone).
Qed.

(** C5: when the requesting user is found and the fetched users contain no
    other user, [matchmake] returns the negative result [found = false]
    and raises nothing. *)
Theorem matchmake_no_other_user db req users :
  get_documents db "user" None None = Ok users →
  Forall (λ u, is_Some (u !! "_id")) users →
  (∃ u, u ∈ users ∧ ext_id u = MatchRequest.user_id req) →
  others (MatchRequest.user_id req) users = [] →
  matchmake db req = Ok NoMatch.
Proof.
  intros Hfetch Hall (u & Hu & Hid) Hothers.
  destruct (locate_is_Some users _ u Hu Hid) as [me Hme].
  destruct (locate_Some _ _ _ Hme) as [Hin _].
  assert (me ≠ ∅) as Hne.
  { eapply Forall_forall in Hall; [|exact Hin].
    intros ->. rewrite lookup_empty in Hall. by destruct Hall. }
  unfold matchmake. rewrite Hfetch. simpl.
  rewrite (find_match_located _ _ me Hme Hne).
  by rewrite scan_alone.
Qed.

(** C6: every successful match reports the identifier, the username and
    the rating of its opponent, who is one of the fetched users other than
    the requester. *)
Theorem matchmake_reports_opponent db req users id username rating :
  get_documents db "user" None None = Ok users →
  matchmake db req = Ok (Match id username rating) →
  ∃ best,
    best ∈ users ∧ ext_id best ≠ MatchRequest.user_id req ∧
    id = ext_id best ∧
    username = get best "username" ∧
    rating = get_or best "rating" (VInt 1200).
Proof.
  intros Hfetch. unfold matchmake, find_match. rewrite Hfetch. simpl.
  destruct (negb (truthy_doc (locate users (MatchRequest.user_id req)))); [done|].
  destruct (scan _ _ users None (10 ^ 9)) as [[best d]|] eqn:Hscan; simpl; [|done].
  destruct best as [b|]; simpl; [|done].
  case_bool_decide; simpl; [|done].
  intros [= <- <- <-].
  apply scan_best in Hscan as [?|[? ?]]; [done|].
  by exists b.
Qed.
End Matchmaking.

(** ** Properties of the schemas *)

(** C3: a [User] built with rating 99 is rejected with a [ValidationError]
    naming [rating]; with the other fields within their constraints, rating
    100 and rating 4000 are accepted as given, and a [User] built without a
    rating gets 1200. *)
Theorem User_rating_bounds (a : User.kwargs) :
  (∃ fields,
     User.new (User.with_rating a (Some 99)) = Raise (ValidationError fields) ∧
     "rating" ∈ fields) ∧
  (User.rest_valid a = true →
   (∃ u, User.new (User.with_rating a (Some 100)) = Ok u ∧ User.rating u = 100) ∧
   (∃ u, User.new (User.with_rating a (Some 4000)) = Ok u ∧ User.rating u = 4000) ∧
   (∃ u, User.new (User.with_rating a None) = Ok u ∧ User.rating u = 1200)).
Proof.
  split.
  - unfold User.new, User.with_rating. cbn -[violates].
    destruct (violates "username" _) as [|f1 fs1],
             (violates "display_name" _) as [|f2 fs2];
      simpl; eexists; (split; [reflexivity | set_solver]).
  - unfold User.rest_valid. intros [Hname Hdisplay]%andb_true_iff.
    unfold User.new. simpl. rewrite Hname, Hdisplay. simpl.
    split_and!; eexists; (split; [reflexivity | done]).
Qed.

(** C9: a [Game] whose white and black player are the same user is accepted,
    with any of the four status values and any move history; so is the
    request of [create_game] for such a game. *)
Theorem Game_same_player_accepted (id status : string) (moves : list string) :
  status ∈ Game.status_values →
  (∃ g,
     Game.new (Game.args id id (Some status) None None None (Some moves)
                         None None None) = Ok g ∧
     Game.white_id g = id ∧ Game.black_id g = id ∧
     Game.status g = status ∧ Game.moves g = moves) ∧
  (∃ g,
     game_of_payload (CreateGameRequest.new id id None None) = Ok g ∧
     Game.white_id g = id ∧ Game.black_id g = id).
Proof.
  intros Hstatus. split.
  - unfold Game.new, literal. simpl.
    rewrite bool_decide_eq_true_2 by done. simpl.
    eexists. split; [reflexivity | done].
  - eexists. split; [reflexivity | done].
Qed.

(** ** The 24-digit hexadecimal identifiers *)

Lemma parse_hex_all_hex (s : string) (acc : N) :
  is_Some (Hex24.parse_hex s acc) ↔ Hex24.all_hex s = true.
Proof.
  revert acc. induction s as [|c s IH]; intros acc; simpl.
  - split; [done | eauto].
  - destruct (Hex24.hex_digit c) as [d|]; [apply IH|].
    split; [by intros [? ?] | done].
Qed.

(** The strings the scheme accepts are those of 24 hexadecimal digits. *)
Lemma hex24_is_valid (s : string) : is_valid s = Hex24.well_formed s.
Proof.
  unfold is_valid, Hex24.well_formed. simpl.
  destruct (String.length s =? 24)%nat; simpl; [|done].
  pose proof (parse_hex_all_hex s 0%N) as [Hthere Hback].
  destruct (Hex24.parse_hex s 0) as [o|]; symmetry.
  - apply Hthere. eauto.
  - apply not_true_is_false. intros Hall. by destruct (Hback Hall).
Qed.

(** ** Properties of the handlers, for every store *)

Section Handlers.
Context `{Hbson : Bson} `{Hbuiltins : Builtins} `{Hstore : !Store}.

Abbreviation doc := (gmap string value).

(** [oid] turns every refusal of the [ObjectId] constructor into HTTP 400
    and passes on what the constructor accepts. *)
Lemma oid_follows_constructor (id_str : string) :
  (is_valid id_str = false → oid id_str = Raise InvalidIdentifier) ∧
  (is_valid id_str = true →
   ∃ o, ObjectId_new id_str = Some o ∧ oid id_str = Ok o).
Proof.
  unfold is_valid, oid.
  destruct (ObjectId_new id_str) as [o|]; split; try done.
  intros _. by exists o.
Qed.

Lemma handle_list_query (db : Db) (r : list_request) :
  handle_list db r =
    (docs ←? get_documents db (lowercase (class_name (listed_kind r)))
               (Some (listed_filter r)) (Some (limit_of r));
     for_each rewrite_id docs).
Proof. by destruct r as [limit|limit|limit|limit|[g|] limit]. Qed.

(** C7: for each of the five record kinds, the create route and the list
    route hand the store the collection name obtained by lowercasing the
    class name of the kind. *)
Theorem routes_use_lowercase_collection (db : Db) :
  (∀ r : create_request,
     handle_create db r =
       (m ←? created_model r;
        x ←? create_document db (lowercase (class_name (created_kind r))) m;
        Ok (IDModel.make x.1, x.2))) ∧
  (∀ r : list_request,
     handle_list db r =
       (docs ←? get_documents db (lowercase (class_name (listed_kind r)))
                  (Some (listed_filter r)) (Some (limit_of r));
        for_each rewrite_id docs)).
Proof.
  split; [|apply handle_list_query].
  intros [user|payload|puzzle|lesson|msg]; try reflexivity.
  simpl. unfold create_game. by destruct (game_of_payload payload).
Qed.

(** C10: listing chat messages with the empty string as game reference is
    listing them with no game reference: the store is queried with the
    empty filter. *)
Theorem list_chat_empty_game_id (db : Db) (limit : Z) :
  list_chat db (Some "") limit = list_chat db None limit ∧
  list_chat db (Some "") limit =
    (docs ←? get_documents db "chatmessage" (Some ∅) (Some limit);
     for_each rewrite_id docs).
Proof. done. Qed.
End Handlers.

(** C8: the identifiers of the store being tokens of 24 hexadecimal digits,
    [oid] fails with [InvalidIdentifier] (HTTP 400) on every string that is
    not well formed, that is, whose length is not 24 or which holds a
    character that is no hexadecimal digit, and it returns the parsed
    identifier on every well-formed string. *)
Theorem oid_well_formed (id_str : string) :
  (Hex24.well_formed id_str = false →
   @oid Hex24.bson id_str = Raise InvalidIdentifier) ∧
  (Hex24.well_formed id_str = true →
   ∃ o, ObjectId_new id_str = Some o ∧ @oid Hex24.bson id_str = Ok o).
Proof.
  rewrite <- hex24_is_valid. apply oid_follows_constructor.
Qed.

(** ** Properties of the list routes on the in-memory store *)

Section ListRoutes.
Context `{Bson} `{Builtins}.

Abbreviation doc := (gmap string value).

Lemma rewrite_id_fetched (row : ObjectId * doc) :
  rewrite_id (fetched row) = Ok (listed row).
Proof.
  unfold rewrite_id, fetched, listed.
  rewrite lookup_insert_eq. simpl. by rewrite delete_insert_eq.
Qed.

Lemma listed_fields (row : ObjectId * doc) :
  listed row !! "_id" = None ∧
  listed row !! "id" = Some (VStr (ObjectId_str row.1)).
Proof.
  unfold listed. split.
  - rewrite lookup_insert_ne by done. apply lookup_delete_eq.
  - apply lookup_insert_eq.
Qed.

(** The rewriting loop succeeds on documents that come from the store, and
    keeps their number. *)
Lemma for_each_rewrite_id (rows : list (ObjectId * doc)) (docs : list doc) :
  Forall (λ d, ∃ row, row ∈ rows ∧ d = fetched row) docs →
  ∃ out,
    for_each rewrite_id docs = Ok out ∧
    length out = length docs ∧
    Forall (λ e, ∃ row, row ∈ rows ∧ e = listed row) out.
Proof.
  induction 1 as [|d docs (row & Hrow & ->) _ (out & Hout & Hlen & Hall)]; simpl.
  { by exists []. }
  rewrite rewrite_id_fetched, Hout. simpl.
  exists (listed row :: out). split_and!; [done | simpl; lia |].
  constructor; [by exists row | done].
Qed.

Lemma mem_get_documents_rows (s : store) (name : string)
    (filter_dict : option doc) (limit : Z) :
  ∃ docs,
    mem_get_documents (Some s) name filter_dict (Some limit) = Ok docs ∧
    (length docs ≤ Z.to_nat limit)%nat ∧
    Forall (λ d, ∃ row, row ∈ collection s name ∧ d = fetched row) docs.
Proof.
  eexists. split; [reflexivity|]. simpl. split.
  - rewrite length_take. lia.
  - apply Forall_forall. intros d (i & Hi & _)%elem_of_take.
    apply list_elem_of_lookup_2, list_elem_of_filter in Hi as [_ Hd].
    apply list_elem_of_fmap in Hd as (row & -> & Hrow). by exists row.
Qed.

(** C2: on a live store, every list route returns at most [limit] entries,
    for every kind, filter and limit that is a count; no entry has the
    field [_id], and each has the field [id] holding the string form of
    the identifier of a document stored in the collection of the kind. *)
Theorem list_bounded_and_rewritten (s : store) (r : list_request) :
  0 ≤ limit_of r →
  ∃ out,
    handle_list (Some s : Db) r = Ok out ∧
    Z.of_nat (length out) ≤ limit_of r ∧
    Forall (λ e,
      e !! "_id" = None ∧
      ∃ row,
        row ∈ collection s (lowercase (class_name (listed_kind r))) ∧
        e !! "id" = Some (VStr (ObjectId_str row.1))) out.
Proof.
  intros Hlimit. rewrite handle_list_query.
  destruct (mem_get_documents_rows s (lowercase (class_name (listed_kind r)))
              (Some (listed_filter r)) (limit_of r))
    as (docs & Hdocs & Hlen & Hrows).
  destruct (for_each_rewrite_id _ _ Hrows) as (out & Hout & Hlen' & Hall).
  exists out. split_and!.
  - cbn [get_documents mem_store]. by rewrite Hdocs.
  - lia.
  - eapply Forall_impl; [exact Hall|].
    intros e (row & Hrow & ->). destruct (listed_fields row) as [? ?].
    split; [done | by exists row].
Qed.
End ListRoutes.

(** ** The statements at concrete inputs *)

Section Concrete.
Import Sample.

Lemma matchmake_closest_first_witness :
  ∃ me before best after,
    me ∈ [A; B; C] ∧ ext_id me = id_A ∧
    locate [A; B; C] id_A = Some me ∧
    others id_A [A; B; C] = before ++ best :: after ∧
    (∀ c, c ∈ before → rating_diff me best < rating_diff me c) ∧
    (∀ c, c ∈ after → rating_diff me best ≤ rating_diff me c) ∧
    matchmake (store_ABC : Db) (MatchRequest.make id_A) = Ok (summary best).
Proof.
  apply (matchmake_closest_first (Hstore := mem_store)
           store_ABC (MatchRequest.make id_A) [A; B; C]).
  - reflexivity.
  - repeat constructor.
  - exists A. split; [left | reflexivity].
  - intros Hn. discriminate Hn.
Defined.

Lemma list_bounded_and_rewritten_witness :
  ∃ out,
    handle_list (Some chat_state : Db) (GetChat (Some "g1") 1) = Ok out ∧
    Z.of_nat (length out) ≤ 1 ∧
    Forall (λ e,
      e !! "_id" = None ∧
      ∃ row,
        row ∈ collection chat_state "chatmessage" ∧
        e !! "id" = Some (VStr (ObjectId_str row.1))) out.
Proof.
  apply (list_bounded_and_rewritten chat_state (GetChat (Some "g1") 1)).
  simpl. lia.
Defined.

Lemma User_rating_bounds_witness :
  (∃ u, User.new (User.args "alice" None None (Some 100) None) = Ok u ∧
        User.rating u = 100) ∧
  (∃ u, User.new (User.args "alice" None None (Some 4000) None) = Ok u ∧
        User.rating u = 4000) ∧
  (∃ u, User.new (User.args "alice" None None None None) = Ok u ∧
        User.rating u = 1200).
Proof.
  apply (User_rating_bounds (User.args "alice" None None None None)).
  reflexivity.
Defined.

Lemma matchmake_unknown_user_witness :
  matchmake (store_ABC : Db) (MatchRequest.make "nonexistent") = Raise UserNotFound.
Proof.
  apply (matchmake_unknown_user (Hstore := mem_store)
           store_ABC (MatchRequest.make "nonexistent") [A; B; C]).
  - reflexivity.
  - apply Forall_forall. repeat constructor; intros Hn; discriminate Hn.
Defined.

Lemma matchmake_no_other_user_witness :
  matchmake (store_A : Db) (MatchRequest.make id_A) = Ok NoMatch.
Proof.
  apply (matchmake_no_other_user (Hstore := mem_store)
           store_A (MatchRequest.make id_A) [A]).
  - reflexivity.
  - repeat constructor. eexists. reflexivity.
  - exists A. split; [left | reflexivity].
  - reflexivity.
Defined.

Lemma matchmake_reports_opponent_witness :
  ∃ best,
    best ∈ [A; B; C] ∧ ext_id best ≠ id_A ∧
    "00000000000000000000000b" = ext_id best ∧
    VStr "bob" = get best "username" ∧
    VInt 1300 = get_or best "rating" (VInt 1200).
Proof.
  apply (matchmake_reports_opponent (Hstore := mem_store)
           store_ABC (MatchRequest.make id_A) [A; B; C]).
  - reflexivity.
  - reflexivity.
Defined.

Lemma oid_well_formed_witness :
  oid "not-an-identifier" = Raise InvalidIdentifier ∧
  ∃ o, ObjectId_new id_A = Some o ∧ oid id_A = Ok o.
Proof.
  split.
  - apply (oid_well_formed "not-an-identifier"). reflexivity.
  - apply (oid_well_formed id_A). reflexivity.
Defined.

Lemma Game_same_player_accepted_witness :
  (∃ g,
     Game.new (Game.args "u1" "u1" (Some "draw") None None None (Some [])
                         None None None) = Ok g ∧
     Game.white_id g = "u1" ∧ Game.black_id g = "u1" ∧
     Game.status g = "draw" ∧ Game.moves g = []) ∧
  (∃ g,
     game_of_payload (CreateGameRequest.new "u1" "u1" None None) = Ok g ∧
     Game.white_id g = "u1" ∧ Game.black_id g = "u1").
Proof.
  apply (Game_same_player_accepted "u1" "draw" []).
  unfold Game.status_values. set_solver.
Defined.
End Concrete.

(** ** Worked examples *)

Section Examples.
Import Sample.

(** A at 1200, B at 1300 and C at 1100, fetched in this order: B and C are
    both 100 points away from A, and B, fetched first, is returned. *)
Example matchmake_tie_first_fetched :
  matchmake (store_ABC : Db) (MatchRequest.make id_A) =
    Ok (Match "00000000000000000000000b" (VStr "bob") (VInt 1300)).
Proof. reflexivity. Qed.

(** The scan starts from [best_diff = 10 ** 9]: a document whose rating is
    that far from the requester's is never selected.  No [User] has such a
    rating, the schema bounds it by 4000. *)
Example matchmake_beyond_initial_diff :
  matchmake (user_store [row_A; (11%N, profile "far" 2000000000)] : Db)
            (MatchRequest.make id_A) = Ok NoMatch.
Proof. reflexivity. Qed.

(** With 24-digit hexadecimal identifiers, a wrong length and a wrong
    character are both rejected. *)
Example oid_wrong_length :
  oid "00000000000000000000000" = Raise InvalidIdentifier.
Proof. reflexivity. Qed.

Example oid_wrong_character :
  oid "0000000000000000000000zz" = Raise InvalidIdentifier.
Proof. reflexivity. Qed.

(** The empty game reference lists the messages of both games, a real one
    only those of its game. *)
Example list_chat_empty_lists_every_game :
  list_chat (Some chat_state : Db) (Some "") 50 = Ok [listed row_1; listed row_2].
Proof. reflexivity. Qed.

Example list_chat_one_game :
  list_chat (Some chat_state : Db) (Some "g1") 50 = Ok [listed row_1].
Proof. reflexivity. Qed.

(** A created user is listed with the identifier its creation returned. *)
Example create_then_list_user :
  (r ←? create_user (Some {| collections := ∅; inserted := 0 |} : Db)
          (User.make "alice" None None 1200 None);
   docs ←? list_users r.2 20;
   Ok (IDModel.id r.1, (λ d : gmap string value, d !! "id") <$> docs)) =
  Ok ("000000000000000000000000", [Some (VStr "000000000000000000000000")]).
Proof. reflexivity. Qed.
End Examples.

(** ** Acceptance of the schemas *)

Lemma validated_Ok {A} (errors : list string) (a b : A) :
  validated errors a = Ok b ↔ errors = [] ∧ a = b.
Proof.
  destruct errors; simpl; split; try done.
  - by intros [= ->].
  - by intros [_ ->].
  - by intros [? _].
Qed.

Lemma violates_nil (field : string) (ok : bool) :
  violates field ok = [] ↔ ok = true.
Proof. by destruct ok. Qed.

Lemma from_option_true {A} (P : A → bool) (o : option A) :
  from_option P true o = true ↔ ∀ x, o = Some x → P x = true.
Proof.
  destruct o as [x|]; simpl; split; try done.
  - by intros ? ? [= <-].
  - eauto.
Qed.

Lemma literal_true (allowed : list string) (s : string) :
  literal allowed s = true ↔ s ∈ allowed.
Proof. unfold literal. apply bool_decide_eq_true. Qed.

Lemma range_true (lo hi x : Z) : ge lo x && le hi x = true ↔ lo ≤ x ≤ hi.
Proof. unfold ge, le. rewrite andb_true_iff, !Z.leb_le. done. Qed.

(** X1: [User(...)] is accepted exactly when the username has 3 to 32
    characters, a given display name has at most 64, and a given rating lies
    in 100..4000; the record then holds the arguments, with 1200 for an
    omitted rating. *)
Theorem User_new_accepts_iff (a : User.kwargs) (u : User.t) :
  User.new a = Ok u ↔
    (3 ≤ String.length (User.a_username a) ≤ 32)%nat ∧
    (∀ d, User.a_display_name a = Some d → (String.length d ≤ 64)%nat) ∧
    (∀ r, User.a_rating a = Some r → 100 ≤ r ≤ 4000) ∧
    u = User.make (User.a_username a) (User.a_display_name a) (User.a_email a)
          (default 1200 (User.a_rating a)) (User.a_country a).
Proof.
  unfold User.new. rewrite validated_Ok, !app_nil, !violates_nil.
  rewrite !from_option_true, andb_true_iff.
  unfold min_length, max_length. rewrite !Nat.leb_le.
  setoid_rewrite range_true. setoid_rewrite Nat.leb_le.
  intuition (eauto || congruence).
Qed.

(** X2: [Game(...)] is accepted exactly when each given field meets its own
    constraint: status, time control and turn among their literals, the
    increment in 0..60, the two clocks not negative.  The record then holds
    the arguments and the defaults of the omitted ones. *)
Theorem Game_new_accepts_iff (a : Game.kwargs) (g : Game.t) :
  Game.new a = Ok g ↔
    (∀ s, Game.a_status a = Some s → s ∈ Game.status_values) ∧
    (∀ t, Game.a_time_control a = Some t → t ∈ Game.time_control_values) ∧
    (∀ i, Game.a_increment a = Some i → 0 ≤ i ≤ 60) ∧
    (∀ t, Game.a_turn a = Some t → t ∈ Game.turn_values) ∧
    (∀ w, Game.a_white_time_ms a = Some w → 0 ≤ w) ∧
    (∀ b, Game.a_black_time_ms a = Some b → 0 ≤ b) ∧
    g = Game.make (Game.a_white_id a) (Game.a_black_id a)
          (default "ongoing" (Game.a_status a))
          (default "blitz" (Game.a_time_control a))
          (default 0 (Game.a_increment a))
          (default Game.initial_fen (Game.a_fen a))
          (default [] (Game.a_moves a))
          (default "w" (Game.a_turn a))
          (default 300000 (Game.a_white_time_ms a))
          (default 300000 (Game.a_black_time_ms a)).
Proof.
  unfold Game.new. rewrite validated_Ok, !app_nil, !violates_nil.
  rewrite !from_option_true.
  setoid_rewrite range_true. setoid_rewrite literal_true.
  unfold ge. setoid_rewrite Z.leb_le.
  intuition (eauto || congruence).
Qed.

(** X3: [Lesson(...)] is accepted exactly when a given topic and a given
    difficulty are among their literals; omitted, they become "basics" and
    "beginner". *)
Theorem Lesson_new_accepts_iff (a : Lesson.kwargs) (l : Lesson.t) :
  Lesson.new a = Ok l ↔
    (∀ t, Lesson.a_topic a = Some t → t ∈ Lesson.topic_values) ∧
    (∀ d, Lesson.a_difficulty a = Some d → d ∈ Lesson.difficulty_values) ∧
    l = Lesson.make (Lesson.a_title a) (Lesson.a_content a)
          (default "basics" (Lesson.a_topic a))
          (default "beginner" (Lesson.a_difficulty a)).
Proof.
  unfold Lesson.new. rewrite validated_Ok, !app_nil, !violates_nil.
  rewrite !from_option_true. setoid_rewrite literal_true.
  intuition (eauto || congruence).
Qed.

(** ** Further properties of the handlers, for every store *)

Section MoreHandlers.
Context `{Hbson : Bson} `{Hbuiltins : Builtins} `{Hstore : !Store}.

Abbreviation doc := (gmap string value).
Implicit Types (d e u me : doc) (docs users : list doc) (user_id : string).

(** X4: [create_game] raises a [ValidationError] when the time control of
    the request is none of the four literals or its increment lies outside
    0..60, and the error names exactly the offending fields; the request
    model itself accepts such values. *)
Theorem create_game_rejects_payload (db : Db) (payload : CreateGameRequest.t) :
  CreateGameRequest.time_control payload ∉ Game.time_control_values ∨
  ¬ (0 ≤ CreateGameRequest.increment payload ≤ 60) →
  ∃ fields,
    create_game db payload = Raise (ValidationError fields) ∧
    ("time_control" ∈ fields ↔
       CreateGameRequest.time_control payload ∉ Game.time_control_values) ∧
    ("increment" ∈ fields ↔ ¬ (0 ≤ CreateGameRequest.increment payload ≤ 60)).
Proof.
  intros Hbad. unfold create_game, game_of_payload, Game.new. simpl.
  pose proof (literal_true Game.time_control_values
                (CreateGameRequest.time_control payload)) as Htc.
  pose proof (range_true 0 60 (CreateGameRequest.increment payload)) as Hinc.
  destruct (literal _ _), (ge 0 _ && le 60 _); simpl.
  - exfalso. destruct Hbad as [Hbad|Hbad]; apply Hbad; [by apply Htc | by apply Hinc].
  - eexists. split; [reflexivity|]. split; split.
    + intros [= ]%list_elem_of_singleton.
    + intros Hn. exfalso. apply Hn. by apply Htc.
    + intros _ Hn%Hinc. done.
    + intros _. repeat constructor.
  - eexists. split; [reflexivity|]. split; split.
    + intros _ Hn%Htc. done.
    + intros _. repeat constructor.
    + intros [= ]%list_elem_of_singleton.
    + intros Hn. exfalso. apply Hn. by apply Hinc.
  - eexists. split; [reflexivity|]. split; split.
    + intros _ Hn%Htc. done.
    + intros _. repeat constructor.
    + intros _ Hn%Hinc. done.
    + intros _. repeat constructor.
Qed.

(** X5: for a request with a valid time control and increment, [create_game]
    hands the store, for the collection "game", a game that is ongoing, has no
    move, has White to move, five minutes on each clock and the fixed
    starting position, whatever else the request says. *)
Theorem create_game_stores_fresh_game (db : Db) (payload : CreateGameRequest.t) :
  CreateGameRequest.time_control payload ∈ Game.time_control_values →
  0 ≤ CreateGameRequest.increment payload ≤ 60 →
  create_game db payload =
    (r ←? create_document db "game"
            (MGame (Game.make (CreateGameRequest.white_id payload)
                      (CreateGameRequest.black_id payload)
                      "ongoing"
                      (CreateGameRequest.time_control payload)
                      (CreateGameRequest.increment payload)
                      Game.initial_fen [] "w" 300000 300000));
     Ok (IDModel.make r.1, r.2)).
Proof.
  intros Htc%literal_true Hinc%range_true.
  unfold create_game, game_of_payload, Game.new. simpl.
  by rewrite Htc, Hinc.
Qed.

Lemma for_each_rewrite_id_fields docs :
  Forall (λ d, is_Some (d !! "_id")) docs →
  ∃ out,
    for_each rewrite_id docs = Ok out ∧
    Forall2 (λ d e,
      e !! "_id" = None ∧
      e !! "id" = (λ v, VStr (py_str v)) <$> d !! "_id" ∧
      ∀ k, k ≠ "_id" → k ≠ "id" → e !! k = d !! k) docs out.
Proof.
  induction 1 as [|d docs [v Hv] _ (out & Hout & Hall)]; simpl.
  { by exists []. }
  unfold rewrite_id at 1. rewrite Hv, Hout. simpl.
  eexists. split; [reflexivity|]. constructor; [|done].
  split_and!.
  - rewrite lookup_insert_ne by done. apply lookup_delete_eq.
  - by rewrite lookup_insert_eq, Hv.
  - intros k H1 H2. rewrite lookup_insert_ne by done. by apply lookup_delete_ne.
Qed.

(** X6: when every document the store returns carries an [_id], a list
    route returns one entry per document, in the same order; the entry has
    no [_id], has the string form of the document's [_id] as [id] (replacing
    an [id] field of the document, if it had one), and agrees with the
    document on every other field. *)
Theorem list_keeps_other_fields (db : Db) (r : list_request) docs :
  get_documents db (lowercase (class_name (listed_kind r)))
    (Some (listed_filter r)) (Some (limit_of r)) = Ok docs →
  Forall (λ d, is_Some (d !! "_id")) docs →
  ∃ out,
    handle_list db r = Ok out ∧
    Forall2 (λ d e,
      e !! "_id" = None ∧
      e !! "id" = (λ v, VStr (py_str v)) <$> d !! "_id" ∧
      ∀ k, k ≠ "_id" → k ≠ "id" → e !! k = d !! k) docs out.
Proof.
  intros Hdocs Hids. rewrite handle_list_query, Hdocs. simpl.
  by apply for_each_rewrite_id_fields.
Qed.

Lemma for_each_rewrite_id_missing docs d :
  d ∈ docs → d !! "_id" = None →
  for_each rewrite_id docs = Raise (KeyError "_id").
Proof.
  intros Hin Hd. induction docs as [|d' docs IH]; [by apply elem_of_nil in Hin|].
  simpl. unfold rewrite_id at 1.
  destruct (d' !! "_id") as [v|] eqn:Hv; simpl; [|done].
  apply elem_of_cons in Hin as [->|Hin]; [congruence|].
  by rewrite IH.
Qed.

(** X7: when one of the documents the store returns has no [_id], a list
    route raises [KeyError("_id")] and returns no entry at all. *)
Theorem list_missing_id_raises (db : Db) (r : list_request) docs d :
  get_documents db (lowercase (class_name (listed_kind r)))
    (Some (listed_filter r)) (Some (limit_of r)) = Ok docs →
  d ∈ docs → d !! "_id" = None →
  handle_list db r = Raise (KeyError "_id").
Proof.
  intros Hdocs Hin Hd. rewrite handle_list_query, Hdocs. simpl.
  by eapply for_each_rewrite_id_missing.
Qed.

(** X8: the identifier rewrite cannot be applied twice: on a document it
    has already rewritten it raises [KeyError("_id")]. *)
Theorem rewrite_id_twice_raises d e :
  rewrite_id d = Ok e → rewrite_id e = Raise (KeyError "_id").
Proof.
  unfold rewrite_id. destruct (d !! "_id") as [v|]; [|done].
  intros [= <-]. rewrite lookup_insert_ne by done.
  by rewrite lookup_delete_eq.
Qed.
End MoreHandlers.

(** ** Further properties of matchmaking, for every fetched list *)

Section MoreMatchmaking.
Context `{Hbson : Bson} `{Hbuiltins : Builtins} `{Hstore : !Store}.

Abbreviation doc := (gmap string value).
Implicit Types (u me c : doc) (users : list doc) (user_id : string).

(** One turn of the second loop. *)
Lemma scan_cons me user_id u users best best_diff :
  scan me user_id (u :: users) best best_diff =
    if bool_decide (ext_id u = user_id) then scan me user_id users best best_diff
    else
      (diff ←? rating_distance me u;
       if diff <? best_diff then scan me user_id users (Some u) diff
       else scan me user_id users best best_diff).
Proof.
  simpl. case_bool_decide; [done|]. unfold rating_distance.
  destruct (py_int (get_or u "rating" (VInt 1200))); simpl; [|done].
  by destruct (py_int (get_or me "rating" (VInt 1200))).
Qed.

Lemma others_cons user_id u users :
  others user_id (u :: users) =
    if bool_decide (ext_id u = user_id) then others user_id users
    else u :: others user_id users.
Proof.
  unfold others. case_bool_decide.
  - by rewrite filter_cons_False by tauto.
  - by rewrite filter_cons_True.
Qed.

(** What a successful run of the second loop says about its outcome. *)
Lemma scan_sound me user_id users best best_diff best' diff' :
  scan me user_id users best best_diff = Ok (best', diff') →
  (best' = best ∧ diff' = best_diff ∧
   ∀ c, c ∈ others user_id users →
     ∃ dc, rating_distance me c = Ok dc ∧ best_diff ≤ dc) ∨
  (∃ before b after,
     best' = Some b ∧
     others user_id users = before ++ b :: after ∧
     rating_distance me b = Ok diff' ∧ diff' < best_diff ∧
     (∀ c, c ∈ before → ∃ dc, rating_distance me c = Ok dc ∧ diff' < dc) ∧
     (∀ c, c ∈ after → ∃ dc, rating_distance me c = Ok dc ∧ diff' ≤ dc)).
Proof.
  revert best best_diff.
  induction users as [|u users IH]; intros best best_diff.
  { intros [= <- <-]. left. split_and!; [done | done |].
    by intros c ?%elem_of_nil. }
  rewrite scan_cons, others_cons. case_bool_decide as Hid; [apply IH|].
  destruct (rating_distance me u) as [du|] eqn:Hdu; simpl; [|done].
  destruct (Z.ltb_spec du best_diff) as [Hlt|Hge]; intros Hscan.
  - right. destruct (IH _ _ Hscan)
      as [(-> & -> & Hrest)
         |(before & b & after & -> & Heq & Hb & Hclose & Hbefore & Hafter)].
    + exists [], u, (others user_id users).
      split_and!; [done | done | done | done | by intros c ?%elem_of_nil | done].
    + exists (u :: before), b, after. rewrite Heq.
      split_and!; [done | done | done | lia | | done].
      intros c [->|Hc]%elem_of_cons; [by exists du | by apply Hbefore].
  - destruct (IH _ _ Hscan)
      as [(-> & -> & Hrest)
         |(before & b & after & -> & Heq & Hb & Hclose & Hbefore & Hafter)].
    + left. split_and!; [done | done |].
      intros c [->|Hc]%elem_of_cons; [by exists du | by apply Hrest].
    + right. exists (u :: before), b, after. rewrite Heq.
      split_and!; [done | done | done | done | | done].
      intros c [->|Hc]%elem_of_cons; [exists du; split; [done | lia] | by apply Hbefore].
Qed.

Lemma scan_far me user_id users best best_diff :
  (∀ c, c ∈ others user_id users →
     ∃ dc, rating_distance me c = Ok dc ∧ best_diff ≤ dc) →
  scan me user_id users best best_diff = Ok (best, best_diff).
Proof.
  induction users as [|u users IH]; [done|].
  rewrite scan_cons, others_cons. case_bool_decide as Hid; [apply IH|].
  intros Hfar. destruct (Hfar u) as (du & -> & Hdu); [left|]. simpl.
  destruct (Z.ltb_spec du best_diff); [lia|].
  apply IH. intros c Hc. apply Hfar. by right.
Qed.

Lemma scan_raises me user_id users best best_diff c e :
  c ∈ others user_id users → rating_distance me c = Raise e →
  ∃ e', scan me user_id users best best_diff = Raise e'.
Proof.
  intros Hc He. revert best best_diff.
  induction users as [|u users IH]; intros best best_diff.
  { by apply elem_of_nil in Hc. }
  rewrite scan_cons. rewrite others_cons in Hc.
  case_bool_decide as Hid; [by apply IH|].
  apply elem_of_cons in Hc as [->|Hc].
  - rewrite He. by exists e.
  - destruct (rating_distance me u) as [du|eu]; simpl; [|by exists eu].
    destruct (du <? best_diff); by apply IH.
Qed.

(** X9: whenever [matchmake] returns a match, for any fetched documents, the
    opponent is another user whose rating is less than 10**9 away from the
    requester's; every other user fetched before the opponent is strictly
    farther away and every one fetched after it is at least as far, and the
    rating of each of them converts to an integer.  The requester [me], from
    whose rating the distances are taken, is a fetched user whose external
    identifier is the requested one. *)
Theorem matchmake_match_is_closest db req users id username rating :
  get_documents db "user" None None = Ok users →
  matchmake db req = Ok (Match id username rating) →
  ∃ me before best after diff,
    me ∈ users ∧ ext_id me = MatchRequest.user_id req ∧
    locate users (MatchRequest.user_id req) = Some me ∧
    others (MatchRequest.user_id req) users = before ++ best :: after ∧
    Match id username rating = summary best ∧
    rating_distance me best = Ok diff ∧ diff < 10 ^ 9 ∧
    (∀ c, c ∈ before → ∃ dc, rating_distance me c = Ok dc ∧ diff < dc) ∧
    (∀ c, c ∈ after → ∃ dc, rating_distance me c = Ok dc ∧ diff ≤ dc).
Proof.
  intros Hfetch. unfold matchmake, find_match. rewrite Hfetch. simpl.
  destruct (locate users (MatchRequest.user_id req)) as [me|] eqn:Hme;
    simpl; [|done].
  destruct (locate_Some _ _ _ Hme) as [Hin Hreq].
  case_bool_decide; simpl; [|done].
  destruct (scan _ _ users None (10 ^ 9)) as [[best' d]|] eqn:Hscan; simpl; [|done].
  apply scan_sound in Hscan
    as [(-> & _ & _)
       |(before & b & after & -> & Heq & Hb & Hclose & Hbefore & Hafter)];
    simpl; [done|].
  case_bool_decide; simpl; [|done].
  intros [= <- <- <-]. by exists me, before, b, after, d.
Qed.

(** X10: [matchmake] starts its search from a difference of 10**9: when the
    requester is found and every other user is at least that far away, it
    answers that no match was found, although other users exist. *)
Theorem matchmake_far_users_no_match db req users me :
  get_documents db "user" None None = Ok users →
  locate users (MatchRequest.user_id req) = Some me → me ≠ ∅ →
  (∀ c, c ∈ others (MatchRequest.user_id req) users →
     ∃ dc, rating_distance me c = Ok dc ∧ 10 ^ 9 ≤ dc) →
  matchmake db req = Ok NoMatch.
Proof.
  intros Hfetch Hme Hne Hfar. unfold matchmake. rewrite Hfetch. simpl.
  rewrite (find_match_located _ _ me Hme Hne).
  by rewrite (scan_far _ _ _ _ _ Hfar).
Qed.

(** X11: when the requester is found and the rating of some other user does
    not convert to an integer (it is null, a list, an identifier, or a string
    [int] rejects), [matchmake] raises and returns no result, even if a
    closest opponent exists among the remaining users. *)
Theorem matchmake_bad_rating_raises db req users me c e :
  get_documents db "user" None None = Ok users →
  locate users (MatchRequest.user_id req) = Some me → me ≠ ∅ →
  c ∈ others (MatchRequest.user_id req) users →
  py_int (get_or c "rating" (VInt 1200)) = Raise e →
  ∃ e', matchmake db req = Raise e'.
Proof.
  intros Hfetch Hme Hne Hc He. unfold matchmake. rewrite Hfetch. simpl.
  rewrite (find_match_located _ _ me Hme Hne).
  destruct (scan_raises me (MatchRequest.user_id req) users None (10 ^ 9) c e Hc)
    as [e' ->]; [|by exists e'].
  unfold rating_distance. by rewrite He.
Qed.
End MoreMatchmaking.

(** ** Properties of the health route *)

Lemma str_slice_prefix (n : nat) (s : string) :
  ∃ rest,
    s = Health.str_slice n s +:+ rest ∧
    (String.length (Health.str_slice n s) ≤ n)%nat ∧
    (rest = "" ∨ String.length (Health.str_slice n s) = n).
Proof.
  revert s. induction n as [|n IH]; intros s; simpl.
  { exists s. split_and!; [done | lia | by right]. }
  destruct s as [|c s]; simpl.
  { exists "". split_and!; [done | lia | by left]. }
  destruct (IH s) as (rest & Hrest & Hlen & Hfull).
  exists rest. split_and!;
    [change (String c s = String c (Health.str_slice n s +:+ rest)); congruence | lia | destruct Hfull; [by left | right; lia]].
Qed.

(** X12: whatever the connection object and the environment,
    [test_database] returns a response that reports the backend as running
    and lists at most ten collections.  It reports "Connected", and gives a
    database name, exactly when there is a connection object whose [name]
    can be read; it sets the URL flag exactly when there is a connection
    object; and when reading [name] raises, it reports the text of that
    failure, cut after 50 characters, and stays "Not Connected". *)
Theorem test_database_report (db : option Health.connection) (env : option string) :
  let r := Health.test_database db env in
  Health.backend r = "✅ Running" ∧
  (length (Health.collections r) ≤ 10)%nat ∧
  (Health.connection_status r = "Connected" ↔ ∃ h, db = Some (Health.Readable h)) ∧
  (is_Some (Health.database_name r) ↔ ∃ h, db = Some (Health.Readable h)) ∧
  (is_Some (Health.database_url r) ↔ is_Some db) ∧
  (∀ e, db = Some (Health.Unreadable e) →
     Health.database r = "❌ Error: " +:+ Health.str_slice 50 e ∧
     Health.connection_status r = "Not Connected").
Proof.
  destruct db as [[[name [names|e]]|e]|]; cbv zeta; simpl.
  - split_and!; [done | rewrite length_take; lia | | | | done];
      (split; [eauto | done]).
  - split_and!; [done | simpl; lia | | | | done]; (split; [eauto | done]).
  - split_and!; [done | simpl; lia | | | |].
    + split; [done | by intros [? ?]].
    + split; [by intros [? ?] | by intros [? ?]].
    + split; [eauto | done].
    + by intros ? [= <-].
  - split_and!; [done | simpl; lia | | | | done];
      (split; [by intros ? || by intros [? ?] | by intros [? ?]]).
Qed.

(** X13: when listing the collections fails, [test_database] still answers:
    it reports the connection as "Connected", no collection, and the text of
    the failure cut after its first 50 characters.  The listing is reached on
    a connection object whose [name] can be read. *)
Theorem test_database_listing_fails (h : Health.handle) (env : option string)
    (e : string) :
  Health.list_collection_names h = inr e →
  let r := Health.test_database (Some (Health.Readable h)) env in
  Health.connection_status r = "Connected" ∧
  Health.collections r = [] ∧
  ∃ shown rest,
    Health.database r = "⚠️  Connected but Error: " +:+ shown ∧
    e = shown +:+ rest ∧
    (String.length shown ≤ 50)%nat ∧
    (rest = "" ∨ String.length shown = 50%nat).
Proof.
  intros He. unfold Health.test_database. rewrite He. simpl.
  split_and!; [done | done |].
  destruct (str_slice_prefix 50 e) as (rest & Hrest & Hlen & Hfull).
  by exists (Health.str_slice 50 e), rest.
Qed.

(** ** The further statements at concrete inputs *)

Section MoreConcrete.
Import Sample Cases.

Lemma User_new_accepts_iff_witness :
  User.new (User.args "alice" (Some "Alice") None (Some 1500) None) =
    Ok (User.make "alice" (Some "Alice") None 1500 None).
Proof.
  apply (User_new_accepts_iff (User.args "alice" (Some "Alice") None (Some 1500) None)).
  simpl. split_and!; [lia | lia | | | done].
  - intros d [= <-]. simpl. lia.
  - intros r [= <-]. lia.
Defined.

Lemma Game_new_accepts_iff_witness :
  Game.new (Game.args "w" "b" (Some "draw") None (Some 5) None None None None None) =
    Ok (Game.make "w" "b" "draw" "blitz" 5 Game.initial_fen [] "w" 300000 300000).
Proof.
  apply (Game_new_accepts_iff
           (Game.args "w" "b" (Some "draw") None (Some 5) None None None None None)).
  simpl. split_and!; try done.
  - intros s [= <-]. apply literal_true. reflexivity.
  - intros i [= <-]. lia.
Defined.

Lemma Lesson_new_accepts_iff_witness :
  Lesson.new (Lesson.args "Forks" "..." (Some "tactics") None) =
    Ok (Lesson.make "Forks" "..." "tactics" "beginner").
Proof.
  apply (Lesson_new_accepts_iff (Lesson.args "Forks" "..." (Some "tactics") None)).
  simpl. split_and!; try done.
  intros t [= <-]. apply literal_true. reflexivity.
Defined.

Lemma create_game_rejects_payload_witness :
  ∃ fields,
    create_game (None : Db) (CreateGameRequest.new "w" "b" (Some "hyperbullet") None) =
      Raise (ValidationError fields) ∧
    ("time_control" ∈ fields ↔ "hyperbullet" ∉ Game.time_control_values) ∧
    ("increment" ∈ fields ↔ ¬ (0 ≤ 0 ≤ 60)).
Proof.
  apply (create_game_rejects_payload (Hstore := mem_store) None
           (CreateGameRequest.new "w" "b" (Some "hyperbullet") None)).
  left. intros Hin%literal_true. discriminate Hin.
Defined.

Lemma create_game_stores_fresh_game_witness :
  create_game (None : Db) (CreateGameRequest.new "w" "b" (Some "rapid") (Some 10)) =
    (r ←? create_document (None : Db) "game"
            (MGame (Game.make "w" "b" "ongoing" "rapid" 10
                      Game.initial_fen [] "w" 300000 300000));
     Ok (IDModel.make r.1, r.2)).
Proof.
  apply (create_game_stores_fresh_game (Hstore := mem_store) None
           (CreateGameRequest.new "w" "b" (Some "rapid") (Some 10))).
  - apply literal_true. reflexivity.
  - simpl. lia.
Defined.

Lemma list_keeps_other_fields_witness :
  ∃ out,
    handle_list (Some chat_state : Db) (GetChat None 50) = Ok out ∧
    Forall2 (λ d e : gmap string value,
      e !! "_id" = None ∧
      e !! "id" = (λ v, VStr (py_str v)) <$> d !! "_id" ∧
      ∀ k, k ≠ "_id" → k ≠ "id" → e !! k = d !! k)
      [fetched row_1; fetched row_2] out.
Proof.
  apply (list_keeps_other_fields (Hbson := Hex24.bson) (Hstore := mem_store)
           (Some chat_state) (GetChat None 50)
           [@fetched Hex24.bson row_1; @fetched Hex24.bson row_2]).
  - reflexivity.
  - repeat constructor; eexists; reflexivity.
Defined.

Lemma list_missing_id_raises_witness :
  handle_list (H1 := fixed_store [A; headless]) () (GetUsers 20) =
    Raise (KeyError "_id").
Proof.
  apply (list_missing_id_raises (Hstore := fixed_store [A; headless])
           () (GetUsers 20) [A; headless] headless).
  - reflexivity.
  - right. left.
  - reflexivity.
Defined.

Lemma rewrite_id_twice_raises_witness :
  rewrite_id (@listed Hex24.bson row_1) = Raise (KeyError "_id").
Proof.
  apply (rewrite_id_twice_raises (Hbson := Hex24.bson)
           (@fetched Hex24.bson row_1) (@listed Hex24.bson row_1)).
  reflexivity.
Defined.

Lemma matchmake_match_is_closest_witness :
  ∃ me before best after diff,
    me ∈ [A; B; C] ∧ ext_id me = id_A ∧
    locate [A; B; C] id_A = Some me ∧
    others id_A [A; B; C] = before ++ best :: after ∧
    Match "00000000000000000000000b" (VStr "bob") (VInt 1300) = summary best ∧
    rating_distance me best = Ok diff ∧ diff < 10 ^ 9 ∧
    (∀ c, c ∈ before → ∃ dc, rating_distance me c = Ok dc ∧ diff < dc) ∧
    (∀ c, c ∈ after → ∃ dc, rating_distance me c = Ok dc ∧ diff ≤ dc).
Proof.
  apply (matchmake_match_is_closest (Hstore := mem_store)
           store_ABC (MatchRequest.make id_A) [A; B; C]).
  - reflexivity.
  - reflexivity.
Defined.

Lemma matchmake_far_users_no_match_witness :
  matchmake (store_far : Db) (MatchRequest.make id_A) = Ok NoMatch.
Proof.
  apply (matchmake_far_users_no_match (Hstore := mem_store)
           store_far (MatchRequest.make id_A) [A; far] A).
  - reflexivity.
  - reflexivity.
  - apply stored_user_nonempty. reflexivity.
  - change (others (MatchRequest.user_id (MatchRequest.make id_A)) [A; far])
      with [far].
    intros c ->%list_elem_of_singleton.
    exists 1999998800. split; [reflexivity | apply Z.leb_le; reflexivity].
Defined.

Lemma matchmake_bad_rating_raises_witness :
  ∃ e', matchmake (store_null : Db) (MatchRequest.make id_A) = Raise e'.
Proof.
  apply (matchmake_bad_rating_raises (Hstore := mem_store)
           store_null (MatchRequest.make id_A) [A; B; null] A null TypeError).
  - reflexivity.
  - reflexivity.
  - apply stored_user_nonempty. reflexivity.
  - change (others (MatchRequest.user_id (MatchRequest.make id_A)) [A; B; null])
      with [B; null].
    right. left.
  - reflexivity.
Defined.

Lemma test_database_listing_fails_witness :
  let r := Health.test_database (Some (Health.Readable failing_listing)) None in
  Health.connection_status r = "Connected" ∧
  Health.collections r = [] ∧
  ∃ shown rest,
    Health.database r = "⚠️  Connected but Error: " +:+ shown ∧
    "connection refused" = shown +:+ rest ∧
    (String.length shown ≤ 50)%nat ∧
    (rest = "" ∨ String.length shown = 50%nat).
Proof.
  apply (test_database_listing_fails failing_listing None "connection refused").
  reflexivity.
Defined.

Lemma test_database_report_witness :
  let r := Health.test_database (Some (Health.Unreadable "boom")) None in
  Health.database r = "❌ Error: boom" ∧
  Health.connection_status r = "Not Connected".
Proof.
  destruct (test_database_report (Some (Health.Unreadable "boom")) None)
    as (_ & _ & _ & _ & _ & Hboom).
  apply (Hboom "boom"). reflexivity.
Defined.
End MoreConcrete.
